(** * The swap form of the waves web application

    A shallow embedding of the state reducer of [waves/src/App.tsx], of the
    amount and asset handlers of [waves/src/components/AssetSelector.tsx] and
    of the beta amount calculator, with the properties of the swap form
    proved about them; then of what the [App] component computes around
    the reducer: wallet balances, the swap button, the header and the link
    to the block explorer.

    JavaScript objects are references.  The reducer builds most of its
    results from fresh object literals, but one of its cases writes through
    [state.alpha], so the [alpha] objects live in an explicit store and a
    [State] holds a location of that store.  The top-level state object and
    the [wallet] object are only ever copied ([...state], [...state.wallet]),
    never written, so they are plain values.  Numbers are IEEE 754 binary64,
    the kernel's primitive floats. *)

From Stdlib Require Import PrimFloat Floats.
From stdpp Require Import gmap strings.

Local Open Scope string_scope.

(** ** Data model *)

(** [enum Asset { LBTC = "L-BTC", USDT = "USDt" }] *)
Inductive Asset := LBTC | USDT.

#[global] Instance Asset_eq_dec : EqDecision Asset.
Proof. solve_decision. Defined.

(** [interface AssetState { type: Asset; amount: string }] *)
Record AssetState := { type : Asset; amount : string }.

(** [interface Rate { ask: number; bid: number }] *)
Record Rate := { ask : float; bid : float }.

(** [interface WalletStatus { exists: boolean; loaded: boolean }]
    ([exists] is a keyword here, hence the underscore). *)
Record WalletStatus := { exists_ : bool; loaded : bool }.

(** [interface Balances { usdt: number; btc: number }], the payload of
    [UpdateBalance]. *)
Record Balances := { usdt : float; btc : float }.

(** The [balance] object that [initialState] and the [UpdateBalance] case
    put under [wallet]. *)
Record WalletBalance := { usdtBalance : float; btcBalance : float }.

(** [interface Wallet { status: WalletStatus }]; [initialState] and the
    reducer also carry a [balance], which the interface does not require. *)
Record Wallet := { balance : option WalletBalance; status : WalletStatus }.

(** Locations of [AssetState] objects, and the store that holds them. *)
Definition loc := nat.
Abbreviation heap := (gmap loc AssetState).

(** [interface State { alpha: AssetState; beta: Asset; txId: string;
    wallet: Wallet }].  [alpha] is a reference.  [initialState] has a [rate]
    as well, which [...state] carries along. *)
Record State := {
  alpha : loc;
  beta : Asset;
  rate : option Rate;
  txId : string;
  wallet : Wallet
}.

(** The payloads an action object carries in [value]. *)
Inductive Value :=
| VString (s : string)
| VNumber (n : float)
| VAsset (a : Asset)
| VBetaAmount (betaAmount : float)
| VWalletStatus (w : WalletStatus)
| VBalances (b : Balances).

(** An action object as the reducer receives it at run time: [kind] is the
    discriminant [action.type], a string on which the reducer switches. *)
Record Action := { kind : string; value : Value }.

(** The members of the union type [Action]. *)
Definition UpdateAlphaAmount (v : string) : Action :=
  {| kind := "UpdateAlphaAmount"; value := VString v |}.
Definition UpdateAlphaAssetType (v : Asset) : Action :=
  {| kind := "UpdateAlphaAssetType"; value := VAsset v |}.
Definition UpdateBetaAssetType (v : Asset) : Action :=
  {| kind := "UpdateBetaAssetType"; value := VAsset v |}.
Definition SwapAssetTypes (betaAmount : float) : Action :=
  {| kind := "SwapAssetTypes"; value := VBetaAmount betaAmount |}.
Definition PublishTransaction (v : string) : Action :=
  {| kind := "PublishTransaction"; value := VString v |}.
Definition UpdateWalletStatus (v : WalletStatus) : Action :=
  {| kind := "UpdateWalletStatus"; value := VWalletStatus v |}.
Definition UpdateBalance (v : Balances) : Action :=
  {| kind := "UpdateBalance"; value := VBalances v |}.

(** The union type [Action] as a predicate on action objects. *)
Inductive typed : Action -> Prop :=
| typed_UpdateAlphaAmount v : typed (UpdateAlphaAmount v)
| typed_UpdateAlphaAssetType v : typed (UpdateAlphaAssetType v)
| typed_UpdateBetaAssetType v : typed (UpdateBetaAssetType v)
| typed_SwapAssetTypes n : typed (SwapAssetTypes n)
| typed_PublishTransaction v : typed (PublishTransaction v)
| typed_UpdateWalletStatus v : typed (UpdateWalletStatus v)
| typed_UpdateBalance v : typed (UpdateBalance v).

(** The five actions of the swap form itself. *)
Inductive form_action : Action -> Prop :=
| form_UpdateAlphaAmount v : form_action (UpdateAlphaAmount v)
| form_UpdateAlphaAssetType v : form_action (UpdateAlphaAssetType v)
| form_UpdateBetaAssetType v : form_action (UpdateBetaAssetType v)
| form_SwapAssetTypes n : form_action (SwapAssetTypes n)
| form_PublishTransaction v : form_action (PublishTransaction v).

(** The strings the [switch] of the reducer has a [case] for. *)
Definition handled_kinds : list string :=
  [ "UpdateAlphaAmount"; "UpdateAlphaAssetType"; "UpdateBetaAssetType";
    "SwapAssetTypes"; "PublishTransaction"; "UpdateBalance";
    "UpdateWalletStatus" ].

(** How a call ends: it returns, it throws [new Error(msg)], or it leaves
    the typed fragment ([Untyped]: a reference to no object, or a payload
    that is not of the type the union gives to its kind; TypeScript rules
    both out). *)
Inductive Completion (A : Type) :=
| Return (a : A)
| Throw (msg : string)
| Untyped.
Arguments Return {A} a.
Arguments Throw {A} msg.
Arguments Untyped {A}.

(** ** The reducer *)

(** [const initialState = { alpha: { type: Asset.LBTC, amount: "0.01" },
    beta: Asset.USDT, rate: ..., txId: "", wallet: ... }]: one object in the
    store, and the state that refers to it. *)
Definition initialAlpha : loc := 0.

Definition initialHeap : heap :=
  {[ initialAlpha := {| type := LBTC; amount := "0.01" |} ]}.

#[warnings="-inexact-float"]
Definition initialState : State :=
  {| alpha := initialAlpha;
     beta := USDT;
     rate := Some {| ask := 33766.30%float; bid := 33670.10%float |};
     txId := "";
     wallet := {| balance := Some {| usdtBalance := 0%float;
                                     btcBalance := 0%float |};
                  status := {| exists_ := false; loaded := false |} |} |}.

(** An object literal [{ type: ..., amount: ... }] allocates. *)
Definition alloc (h : heap) (a : AssetState) : heap * loc :=
  let l := fresh (dom h) in (<[l := a]> h, l).

(** [export function reducer(state: State = initialState, action)], case
    by case in the order of the source.  The default of [state] applies
    to a call with no state; [useReducer] and the tests always pass one. *)
Definition reducer (h : heap) (state : State) (action : Action)
  : Completion (heap * State) :=
  if String.eqb (kind action) "UpdateAlphaAmount" then
    match h !! alpha state, value action with
    | Some a, VString v =>
        let '(h', l) := alloc h {| type := type a; amount := v |} in
        Return (h', {| alpha := l; beta := beta state; rate := rate state;
                       txId := txId state; wallet := wallet state |})
    | _, _ => Untyped
    end
  else if String.eqb (kind action) "UpdateAlphaAssetType" then
    match h !! alpha state, value action with
    | Some a, VAsset v =>
        let beta' := if decide (beta state = v) then type a else beta state in
        let '(h', l) := alloc h {| type := v; amount := amount a |} in
        Return (h', {| alpha := l; beta := beta'; rate := rate state;
                       txId := txId state; wallet := wallet state |})
    | _, _ => Untyped
    end
  else if String.eqb (kind action) "UpdateBetaAssetType" then
    match h !! alpha state, value action with
    | Some a, VAsset v =>
        (* [let alpha = state.alpha] is the same object: the assignment
           [alpha.type = state.beta] writes into the state passed in. *)
        let h' := if decide (type a = v)
                  then <[alpha state := {| type := beta state;
                                           amount := amount a |}]> h
                  else h in
        Return (h', {| alpha := alpha state; beta := v; rate := rate state;
                       txId := txId state; wallet := wallet state |})
    | _, _ => Untyped
    end
  else if String.eqb (kind action) "SwapAssetTypes" then
    match h !! alpha state with
    | Some a =>
        let '(h', l) := alloc h {| type := beta state; amount := amount a |} in
        Return (h', {| alpha := l; beta := type a; rate := rate state;
                       txId := txId state; wallet := wallet state |})
    | None => Untyped
    end
  else if String.eqb (kind action) "PublishTransaction" then
    Return (h, {| alpha := alpha state; beta := beta state;
                  rate := rate state; txId := txId state;
                  wallet := wallet state |})
  else if String.eqb (kind action) "UpdateBalance" then
    match value action with
    | VBalances b =>
        Return (h, {| alpha := alpha state; beta := beta state;
                      rate := rate state; txId := txId state;
                      wallet := {| balance := Some {| usdtBalance := usdt b;
                                                      btcBalance := btc b |};
                                   status := status (wallet state) |} |})
    | _ => Untyped
    end
  else if String.eqb (kind action) "UpdateWalletStatus" then
    match value action with
    | VWalletStatus w =>
        Return (h, {| alpha := alpha state; beta := beta state;
                      rate := rate state; txId := txId state;
                      wallet := {| balance := balance (wallet state);
                                   status := {| exists_ := exists_ w;
                                                loaded := loaded w |} |} |})
    | _ => Untyped
    end
  else Throw "Unknown update action received".

(** [const [state, dispatch] = useReducer(reducer, initialState)]: each
    dispatched action takes the current state to the one the reducer
    returns; a throw ends the run. *)
Fixpoint dispatch_all (h : heap) (state : State) (actions : list Action)
  : Completion (heap * State) :=
  match actions with
  | [] => Return (h, state)
  | action :: rest =>
      match reducer h state action with
      | Return (h', state') => dispatch_all h' state' rest
      | Throw msg => Throw msg
      | Untyped => Untyped
      end
  end.

(** ** The asset selector *)

Module AssetSelector.

(** [type AssetSide = "Alpha" | "Beta"], a string at run time. *)
Definition Alpha : string := "Alpha".
Definition Beta : string := "Beta".

(** [const onAmountChange = (newAmount: number) => { switch (assetSide)
    ... }] of the selector rendered for [assetSide].  The handler returns
    nothing; what it does is to call [dispatch], so the model returns the
    action it dispatches.  This selector passes the number it gets from
    the input on as the payload. *)
Definition onAmountChange (assetSide : string) (newAmount : float)
  : Completion Action :=
  if String.eqb assetSide "Alpha" then
    Return {| kind := "UpdateAlphaAmount"; value := VNumber newAmount |}
  else Throw "Only support editing alpha amount at the moment".

(** [const onAssetTypeChange = (newType: Asset) => { switch (assetSide)
    ... }]. *)
Definition onAssetTypeChange (assetSide : string) (newType : Asset)
  : Completion Action :=
  if String.eqb assetSide "Alpha" then Return (UpdateAlphaAssetType newType)
  else if String.eqb assetSide "Beta" then
    Return (UpdateBetaAssetType newType)
  else Throw "Unknown asset side".

End AssetSelector.

(** ** The beta amount calculator *)






(** ** What the form reads of a state *)

(** The three values the selectors are rendered from: [state.alpha.type],
    [state.alpha.amount] and [state.beta]. *)
Record Legs := { alphaType : Asset; alphaAmount : string; betaType : Asset }.

Definition legs (h : heap) (state : State) : option Legs :=
  match h !! alpha state with
  | Some a => Some {| alphaType := type a; alphaAmount := amount a;
                      betaType := beta state |}
  | None => None
  end.

(** The legs with the two assets exchanged and the amount kept. *)
Definition swapLegs (l : Legs) : Legs :=
  {| alphaType := betaType l; alphaAmount := alphaAmount l;
     betaType := alphaType l |}.

(** The amount string that a sequence of actions leaves in the form: the
    payload of its last [UpdateAlphaAmount], or the amount before it. *)
Fixpoint amount_after (before : string) (actions : list Action) : string :=
  match actions with
  | [] => before
  | action :: rest =>
      amount_after
        (if String.eqb (kind action) "UpdateAlphaAmount" then
           match value action with VString v => v | _ => before end
         else before)
        rest
  end.

(** ** The component around the reducer *)

Module App.

(** The strings behind [enum Asset]. *)
Definition ticker_of (a : Asset) : string :=
  match a with
  | LBTC => "L-BTC"
  | USDT => "USDt"
  end.

(** An entry of the array that [getBalances] resolves to; the component
    reads its [ticker] and its [value]. *)
Record BalanceEntry := { ticker : string; value : float }.

(** [let walletStatus = getWalletStatusResponse || { exists: false,
    loaded: false }]. *)
Definition walletStatus (getWalletStatusResponse : option WalletStatus)
  : WalletStatus :=
  match getWalletStatusResponse with
  | Some w => w
  | None => {| exists_ := false; loaded := false |}
  end.

(** The key function given to [useSWR]: [() => walletStatus.loaded ?
    "wallet-balances" : null]; with [null] nothing is fetched. *)
Definition balancesKey (w : WalletStatus) : option string :=
  if loaded w then Some "wallet-balances" else None.

(** [let balances = getBalancesResponse || []]. *)
Definition balances (getBalancesResponse : option (list BalanceEntry))
  : list BalanceEntry :=
  match getBalancesResponse with
  | Some l => l
  | None => []
  end.

(** [balances.find(balance => balance.ticker === asset)] followed by
    [entry ? entry.value : 0]. *)
Definition balanceOf (a : Asset) (bs : list BalanceEntry) : float :=
  match List.find (fun b => String.eqb (ticker b) (ticker_of a)) bs with
  | Some entry => value entry
  | None => 0%float
  end.

Definition btcBalance (bs : list BalanceEntry) : float := balanceOf LBTC bs.
Definition usdtBalance (bs : list BalanceEntry) : float := balanceOf USDT bs.

(** [let isSwapButtonDisabled = state.alpha.type === Asset.LBTC ?
    btcBalance < alphaAmount : usdtBalance < alphaAmount], where
    [alphaAmount] is what [Number.parseFloat] made of [state.alpha.amount]
    and [alphaType] is [state.alpha.type]. *)
Definition isSwapButtonDisabled (alphaType : Asset)
    (bs : list BalanceEntry) (alphaAmount : float) : bool :=
  if decide (alphaType = LBTC) then PrimFloat.ltb (btcBalance bs) alphaAmount
  else PrimFloat.ltb (usdtBalance bs) alphaAmount.

(** What the header shows: the three branches that assign
    [walletBalances]. *)
Inductive WalletView :=
| CreateWalletButton
| UnlockWalletButton
| WalletBalancesView.

Definition walletBalances (w : WalletStatus) : WalletView :=
  if negb (exists_ w) then CreateWalletButton
  else if exists_ w && negb (loaded w) then UnlockWalletButton
  else WalletBalancesView.



End App.

Module AssetSelectorView.

(** [isDisabled={assetSide === "Beta"}], the same for both inputs. *)
Definition isDisabled (assetSide : string) : bool :=
  String.eqb assetSide "Beta".

End AssetSelectorView.

(** ** The invariant of the form *)

(** The state refers to an [alpha] object, whose asset is not [beta]. *)
Definition legs_differ (h : heap) (state : State) : Prop :=
  exists a, h !! alpha state = Some a /\ type a <> beta state.

(** ** Allocation *)

Section alloc.
Variables (h : heap) (a : AssetState).

Lemma alloc_fresh : h !! (alloc h a).2 = None.
Proof. apply not_elem_of_dom, is_fresh. Qed.

Lemma alloc_lookup : (alloc h a).1 !! (alloc h a).2 = Some a.
Proof. apply lookup_insert_eq. Qed.

(** Allocation leaves every object that exists as it is. *)
Lemma alloc_frame l x : h !! l = Some x -> (alloc h a).1 !! l = Some x.
Proof.
  intros Hl. unfold alloc; simpl. rewrite lookup_insert_ne; [done|].
  intros <-. pose proof alloc_fresh as Hf. unfold alloc in Hf; simpl in Hf.
  congruence.
Qed.
End alloc.

(** ** The reducer, case by case *)

(** [{ ...state }] is a copy that equals the state it copies. *)
Lemma spread_state (s : State) :
  {| alpha := alpha s; beta := beta s; rate := rate s; txId := txId s;
     wallet := wallet s |} = s.
Proof. by destruct s. Qed.

Lemma asset_state_eta (a : AssetState) :
  {| type := type a; amount := amount a |} = a.
Proof. by destruct a. Qed.

Section cases.
Variables (h : heap) (state : State).

Lemma reducer_UpdateAlphaAmount v :
  reducer h state (UpdateAlphaAmount v) =
  match h !! alpha state with
  | Some a =>
      Return ((alloc h {| type := type a; amount := v |}).1,
              {| alpha := (alloc h {| type := type a; amount := v |}).2;
                 beta := beta state; rate := rate state;
                 txId := txId state; wallet := wallet state |})
  | None => Untyped
  end.
Proof. unfold reducer; simpl. by destruct (h !! alpha state). Qed.

Lemma reducer_UpdateAlphaAssetType v :
  reducer h state (UpdateAlphaAssetType v) =
  match h !! alpha state with
  | Some a =>
      Return ((alloc h {| type := v; amount := amount a |}).1,
              {| alpha := (alloc h {| type := v; amount := amount a |}).2;
                 beta := if decide (beta state = v) then type a
                         else beta state;
                 rate := rate state; txId := txId state;
                 wallet := wallet state |})
  | None => Untyped
  end.
Proof. unfold reducer; simpl. by destruct (h !! alpha state). Qed.

Lemma reducer_UpdateBetaAssetType v :
  reducer h state (UpdateBetaAssetType v) =
  match h !! alpha state with
  | Some a =>
      Return (if decide (type a = v)
              then <[alpha state := {| type := beta state;
                                       amount := amount a |}]> h
              else h,
              {| alpha := alpha state; beta := v; rate := rate state;
                 txId := txId state; wallet := wallet state |})
  | None => Untyped
  end.
Proof. unfold reducer; simpl. by destruct (h !! alpha state). Qed.

Lemma reducer_SwapAssetTypes n :
  reducer h state (SwapAssetTypes n) =
  match h !! alpha state with
  | Some a =>
      Return ((alloc h {| type := beta state; amount := amount a |}).1,
              {| alpha :=
                   (alloc h {| type := beta state; amount := amount a |}).2;
                 beta := type a; rate := rate state; txId := txId state;
                 wallet := wallet state |})
  | None => Untyped
  end.
Proof. unfold reducer; simpl. by destruct (h !! alpha state). Qed.

Lemma reducer_PublishTransaction v :
  reducer h state (PublishTransaction v) = Return (h, state).
Proof. unfold reducer; simpl. by rewrite spread_state. Qed.

Lemma reducer_UpdateBalance b :
  reducer h state (UpdateBalance b) =
  Return (h, {| alpha := alpha state; beta := beta state;
                rate := rate state; txId := txId state;
                wallet := {| balance := Some {| usdtBalance := usdt b;
                                                btcBalance := btc b |};
                             status := status (wallet state) |} |}).
Proof. reflexivity. Qed.

Lemma reducer_UpdateWalletStatus w :
  reducer h state (UpdateWalletStatus w) =
  Return (h, {| alpha := alpha state; beta := beta state;
                rate := rate state; txId := txId state;
                wallet := {| balance := balance (wallet state);
                             status := {| exists_ := exists_ w;
                                          loaded := loaded w |} |} |}).
Proof. reflexivity. Qed.
End cases.

(** ** The transitions of the swap form *)

(** C8: dispatching [UpdateAlphaAmount] with an amount string on any state
    returns a state whose [alpha.amount] is that string, with [alpha.type]
    and [beta] as before. *)
Theorem UpdateAlphaAmount_sets_amount (h : heap) (state : State)
    (a : AssetState) (newAmount : string) :
  h !! alpha state = Some a ->
  exists h' state',
    reducer h state (UpdateAlphaAmount newAmount) = Return (h', state')
    /\ h' !! alpha state' = Some {| type := type a; amount := newAmount |}
    /\ beta state' = beta state.
Proof.
  intros Ha. rewrite reducer_UpdateAlphaAmount, Ha.
  eexists _, _. split; [reflexivity|]. split; [apply alloc_lookup|done].
Qed.

Lemma UpdateAlphaAmount_sets_amount_witness :
  exists h' state',
    reducer initialHeap initialState (UpdateAlphaAmount "42")
      = Return (h', state')
    /\ h' !! alpha state' = Some {| type := LBTC; amount := "42" |}
    /\ beta state' = USDT.
Proof.
  apply (UpdateAlphaAmount_sets_amount initialHeap initialState
           {| type := LBTC; amount := "0.01" |} "42").
  reflexivity.
Defined.

(** C4: dispatching [UpdateAlphaAssetType] with an asset on any state
    returns a state whose [alpha.type] is that asset and whose
    [alpha.amount] is as before; [beta] becomes the old [alpha.type] when
    the old [beta] is the new asset, and stays as it is otherwise. *)
Theorem UpdateAlphaAssetType_sets_type (h : heap) (state : State)
    (a : AssetState) (newType : Asset) :
  h !! alpha state = Some a ->
  exists h' state',
    reducer h state (UpdateAlphaAssetType newType) = Return (h', state')
    /\ h' !! alpha state' = Some {| type := newType; amount := amount a |}
    /\ (beta state = newType -> beta state' = type a)
    /\ (beta state <> newType -> beta state' = beta state).
Proof.
  intros Ha. rewrite reducer_UpdateAlphaAssetType, Ha.
  eexists _, _. split; [reflexivity|]. split; [apply alloc_lookup|].
  simpl. by destruct (decide (beta state = newType)).
Qed.

Lemma UpdateAlphaAssetType_sets_type_witness :
  exists h' state',
    reducer initialHeap initialState (UpdateAlphaAssetType USDT)
      = Return (h', state')
    /\ h' !! alpha state' = Some {| type := USDT; amount := "0.01" |}
    /\ (USDT = USDT -> beta state' = LBTC)
    /\ (USDT <> USDT -> beta state' = USDT).
Proof.
  apply (UpdateAlphaAssetType_sets_type initialHeap initialState
           {| type := LBTC; amount := "0.01" |} USDT).
  reflexivity.
Defined.

(** C5: dispatching [UpdateBetaAssetType] with an asset on any state
    returns a state whose [beta] is that asset; [alpha.type] becomes the
    old [beta] when the old [alpha.type] is the new asset, and stays as it
    is otherwise; [alpha.amount] is as before in both cases. *)
Theorem UpdateBetaAssetType_sets_beta (h : heap) (state : State)
    (a : AssetState) (newType : Asset) :
  h !! alpha state = Some a ->
  exists h' state' a',
    reducer h state (UpdateBetaAssetType newType) = Return (h', state')
    /\ beta state' = newType
    /\ h' !! alpha state' = Some a'
    /\ (type a = newType -> type a' = beta state)
    /\ (type a <> newType -> type a' = type a)
    /\ amount a' = amount a.
Proof.
  intros Ha. rewrite reducer_UpdateBetaAssetType, Ha.
  destruct (decide (type a = newType)) as [Heq|Hne].
  - eexists _, _, _. split; [reflexivity|]. split; [done|].
    split; [apply lookup_insert_eq|]. done.
  - exists h, {| alpha := alpha state; beta := newType; rate := rate state;
                 txId := txId state; wallet := wallet state |}, a.
    done.
Qed.

Lemma UpdateBetaAssetType_sets_beta_witness :
  exists h' state' a',
    reducer initialHeap initialState (UpdateBetaAssetType LBTC)
      = Return (h', state')
    /\ beta state' = LBTC
    /\ h' !! alpha state' = Some a'
    /\ (LBTC = LBTC -> type a' = USDT)
    /\ (LBTC <> LBTC -> type a' = LBTC)
    /\ amount a' = "0.01".
Proof.
  apply (UpdateBetaAssetType_sets_beta initialHeap initialState
           {| type := LBTC; amount := "0.01" |} LBTC).
  reflexivity.
Defined.

(** C2: dispatching [SwapAssetTypes] on any state returns a state whose
    [alpha.type] is the old [beta] and whose [beta] is the old
    [alpha.type], with [alpha.amount] as before; dispatching it once more
    gives back the first [alpha.type] and [beta]; and the [betaAmount] that
    the action carries makes no difference. *)
Theorem SwapAssetTypes_exchanges_types (h : heap) (state : State)
    (a : AssetState) (betaAmount : float) :
  h !! alpha state = Some a ->
  exists h1 state1,
    reducer h state (SwapAssetTypes betaAmount) = Return (h1, state1)
    /\ h1 !! alpha state1 = Some {| type := beta state; amount := amount a |}
    /\ beta state1 = type a
    /\ (forall betaAmount', exists h2 state2,
          reducer h1 state1 (SwapAssetTypes betaAmount') = Return (h2, state2)
          /\ h2 !! alpha state2
             = Some {| type := type a; amount := amount a |}
          /\ beta state2 = beta state)
    /\ (forall betaAmount',
          reducer h state (SwapAssetTypes betaAmount')
          = reducer h state (SwapAssetTypes betaAmount)).
Proof.
  intros Ha. rewrite reducer_SwapAssetTypes, Ha.
  eexists _, _. split; [reflexivity|]. split; [apply alloc_lookup|].
  split; [done|]. split.
  - intros n'. rewrite reducer_SwapAssetTypes. cbn [alpha beta].
    rewrite alloc_lookup. eexists _, _. split; [reflexivity|].
    split; [apply alloc_lookup|done].
  - intros n'. rewrite reducer_SwapAssetTypes, Ha. reflexivity.
Qed.

Lemma SwapAssetTypes_exchanges_types_witness :
  exists h1 state1,
    reducer initialHeap initialState (SwapAssetTypes 336.5%float)
      = Return (h1, state1)
    /\ h1 !! alpha state1 = Some {| type := USDT; amount := "0.01" |}
    /\ beta state1 = LBTC
    /\ (forall betaAmount', exists h2 state2,
          reducer h1 state1 (SwapAssetTypes betaAmount') = Return (h2, state2)
          /\ h2 !! alpha state2 = Some {| type := LBTC; amount := "0.01" |}
          /\ beta state2 = USDT)
    /\ (forall betaAmount',
          reducer initialHeap initialState (SwapAssetTypes betaAmount')
          = reducer initialHeap initialState (SwapAssetTypes 336.5%float)).
Proof.
  apply (SwapAssetTypes_exchanges_types initialHeap initialState
           {| type := LBTC; amount := "0.01" |} 336.5%float).
  reflexivity.
Defined.

(** ** Unknown actions *)

(** Every [case] of the [switch] that does not match falls through to the
    next one. *)
Lemma eqb_not_handled (k k' : string) :
  k ∉ handled_kinds -> k' ∈ handled_kinds -> String.eqb k k' = false.
Proof. intros Hk Hk'. apply String.eqb_neq. by intros ->. Qed.

(** C6: on every state, an action whose kind is none of the kinds the
    reducer has a case for makes the reducer throw; it returns no state. *)
Theorem unknown_action_throws (h : heap) (state : State) (action : Action) :
  kind action ∉ handled_kinds ->
  reducer h state action = Throw "Unknown update action received".
Proof.
  intros Hk. unfold reducer.
  rewrite !(eqb_not_handled _ _ Hk); [done|..];
    unfold handled_kinds; set_solver.
Qed.

Lemma unknown_action_throws_witness :
  reducer initialHeap initialState
    {| kind := "UpdateBetaAmount"; value := VString "1" |}
  = Throw "Unknown update action received".
Proof.
  apply (unknown_action_throws initialHeap initialState
           {| kind := "UpdateBetaAmount"; value := VString "1" |}).
  apply (bool_decide_unpack _). reflexivity.
Defined.

(** C9: the amount handler of a selector whose side is not ["Alpha"], the
    beta selector for one, throws for every amount and dispatches
    nothing; the alpha selector dispatches [UpdateAlphaAmount]. *)
Theorem onAmountChange_beta_throws (assetSide : string) (newAmount : float) :
  assetSide <> AssetSelector.Alpha ->
  AssetSelector.onAmountChange assetSide newAmount
  = Throw "Only support editing alpha amount at the moment"
  /\ AssetSelector.onAmountChange AssetSelector.Beta newAmount
     = Throw "Only support editing alpha amount at the moment"
  /\ exists action,
       AssetSelector.onAmountChange AssetSelector.Alpha newAmount
       = Return action
       /\ kind action = "UpdateAlphaAmount".
Proof.
  intros Hside. unfold AssetSelector.onAmountChange.
  apply String.eqb_neq in Hside. unfold AssetSelector.Alpha in Hside.
  rewrite Hside. split; [done|]. split; [done|]. by eexists.
Qed.

Lemma onAmountChange_beta_throws_witness :
  AssetSelector.onAmountChange "Beta" 2%float
  = Throw "Only support editing alpha amount at the moment".
Proof.
  apply (onAmountChange_beta_throws "Beta" 2%float).
  apply (bool_decide_unpack _). reflexivity.
Defined.

(** ** The two legs never hold the same asset *)

Lemma form_action_typed action : form_action action -> typed action.
Proof. destruct 1; constructor. Qed.

(** Every action of the union type takes a state with different legs to
    a state with different legs, and never throws. *)
Lemma reducer_legs_differ (h : heap) (state : State) (action : Action) :
  typed action -> legs_differ h state ->
  exists h' state',
    reducer h state action = Return (h', state') /\ legs_differ h' state'.
Proof.
  intros Ht (a & Ha & Hne). destruct Ht as [v|v|v|n|v|w|b].
  - rewrite reducer_UpdateAlphaAmount, Ha. eexists _, _.
    split; [reflexivity|]. eexists. split; [apply alloc_lookup|done].
  - rewrite reducer_UpdateAlphaAssetType, Ha. eexists _, _.
    split; [reflexivity|]. eexists. split; [apply alloc_lookup|].
    simpl. destruct (decide (beta state = v)); congruence.
  - rewrite reducer_UpdateBetaAssetType, Ha. eexists _, _.
    split; [reflexivity|]. destruct (decide (type a = v)) as [<-|Hv].
    + eexists. split; [apply lookup_insert_eq|]. simpl. congruence.
    + exists a. done.
  - rewrite reducer_SwapAssetTypes, Ha. eexists _, _.
    split; [reflexivity|]. eexists. split; [apply alloc_lookup|].
    simpl. congruence.
  - rewrite reducer_PublishTransaction. eexists _, _.
    split; [reflexivity|]. by exists a.
  - rewrite reducer_UpdateWalletStatus. eexists _, _.
    split; [reflexivity|]. by exists a.
  - rewrite reducer_UpdateBalance. eexists _, _.
    split; [reflexivity|]. by exists a.
Qed.

Lemma dispatch_all_legs_differ (actions : list Action) :
  Forall typed actions ->
  forall h state, legs_differ h state ->
  exists h' state',
    dispatch_all h state actions = Return (h', state')
    /\ legs_differ h' state'.
Proof.
  induction 1 as [|action rest Ht _ IH]; intros h state Hinv.
  - by exists h, state.
  - destruct (reducer_legs_differ h state action Ht Hinv)
      as (h1 & state1 & Hstep & Hinv1).
    simpl. rewrite Hstep. by apply IH.
Qed.

Lemma initial_legs_differ : legs_differ initialHeap initialState.
Proof. eexists. split; [reflexivity|done]. Qed.

(** C1: from the initial state (alpha L-BTC with amount "0.01", beta
    USDt), dispatching any finite sequence of [UpdateAlphaAmount],
    [UpdateAlphaAssetType], [UpdateBetaAssetType], [SwapAssetTypes] and
    [PublishTransaction] actions reaches a state, and in that state
    [alpha.type] is not [beta]. *)
Theorem reachable_legs_differ (actions : list Action) :
  Forall form_action actions ->
  exists h state a,
    dispatch_all initialHeap initialState actions = Return (h, state)
    /\ h !! alpha state = Some a
    /\ type a <> beta state.
Proof.
  intros Hform.
  destruct (dispatch_all_legs_differ actions) with (2 := initial_legs_differ)
    as (h & state & Hrun & a & Ha & Hne).
  { eapply Forall_impl; [exact Hform|]. apply form_action_typed. }
  by exists h, state, a.
Qed.

Lemma reachable_legs_differ_witness :
  exists h state a,
    dispatch_all initialHeap initialState
      [UpdateBetaAssetType LBTC; SwapAssetTypes 1%float;
       UpdateAlphaAssetType USDT; UpdateAlphaAmount "3";
       PublishTransaction "ab12"]
    = Return (h, state)
    /\ h !! alpha state = Some a
    /\ type a <> beta state.
Proof.
  apply (reachable_legs_differ
           [UpdateBetaAssetType LBTC; SwapAssetTypes 1%float;
            UpdateAlphaAssetType USDT; UpdateAlphaAmount "3";
            PublishTransaction "ab12"]).
  repeat constructor.
Defined.

(** ** The reducer writes into the state it is given *)

(** Only the [UpdateBetaAssetType] case writes into an object that exists
    before the call: every other kind of action leaves the objects of the
    store, the [alpha] of the input state among them, as they are. *)
Lemma reducer_frame (h h' : heap) (state state' : State) (action : Action) :
  kind action <> "UpdateBetaAssetType" ->
  reducer h state action = Return (h', state') ->
  forall l x, h !! l = Some x -> h' !! l = Some x.
Proof.
  intros Hk%String.eqb_neq Hred l x Hl. unfold reducer in Hred.
  rewrite Hk in Hred.
  repeat case_match; simplify_eq; try done;
    match goal with
    | H : alloc ?h0 ?a0 = (?h1, _) |- _ =>
        replace h1 with (alloc h0 a0).1 by (by rewrite H)
    end; by apply alloc_frame.
Qed.

(** C3, at the initial state: [UpdateBetaAssetType] with the asset that
    alpha holds returns a state that shares its [alpha] object with the
    input, and the call has changed [alpha.type] of the input from L-BTC to
    USDt, which is its [beta]. *)
Theorem UpdateBetaAssetType_writes_input :
  exists h' state',
    reducer initialHeap initialState (UpdateBetaAssetType LBTC)
      = Return (h', state')
    /\ alpha state' = alpha initialState
    /\ initialHeap !! alpha initialState
       = Some {| type := LBTC; amount := "0.01" |}
    /\ h' !! alpha initialState = Some {| type := USDT; amount := "0.01" |}
    /\ beta initialState = USDT.
Proof. eexists _, _. repeat split. Qed.

(** ** What the remaining actions leave alone *)

(** No case of the reducer assigns [txId]. *)
Lemma reducer_txId (h h' : heap) (state state' : State) (action : Action) :
  reducer h state action = Return (h', state') -> txId state' = txId state.
Proof.
  unfold reducer. intros Hred. repeat case_match; by simplify_eq.
Qed.

Lemma dispatch_all_txId (actions : list Action) :
  forall h state h' state',
    dispatch_all h state actions = Return (h', state') ->
    txId state' = txId state.
Proof.
  induction actions as [|action rest IH]; intros h state h' state' Hrun.
  - by simplify_eq/=.
  - simpl in Hrun.
    destruct (reducer h state action) as [[h1 state1]|msg|] eqn:Hstep;
      [|done..].
    rewrite (IH _ _ _ _ Hrun). by eapply reducer_txId.
Qed.

(** C10: on every state, [PublishTransaction], [UpdateWalletStatus] and
    [UpdateBalance] leave the store, the [alpha] reference and [beta] as
    they are; [PublishTransaction] returns a state equal to its input; no
    action changes [txId]; and so [txId] is the empty string in every state
    reached from the initial one. *)
Theorem wallet_actions_keep_legs_and_txId :
  (forall h state txid,
     reducer h state (PublishTransaction txid) = Return (h, state))
  /\ (forall h state w, exists state',
        reducer h state (UpdateWalletStatus w) = Return (h, state')
        /\ alpha state' = alpha state /\ beta state' = beta state)
  /\ (forall h state b, exists state',
        reducer h state (UpdateBalance b) = Return (h, state')
        /\ alpha state' = alpha state /\ beta state' = beta state)
  /\ (forall h state action h' state',
        reducer h state action = Return (h', state') ->
        txId state' = txId state)
  /\ (forall actions h state,
        dispatch_all initialHeap initialState actions = Return (h, state) ->
        txId state = "").
Proof.
  split; [apply reducer_PublishTransaction|].
  split; [intros; rewrite reducer_UpdateWalletStatus; by eexists|].
  split; [intros; rewrite reducer_UpdateBalance; by eexists|].
  split; [intros *; apply reducer_txId|].
  intros actions h state Hrun. by rewrite (dispatch_all_txId _ _ _ _ _ Hrun).
Qed.

Lemma wallet_actions_keep_legs_and_txId_witness :
  exists h state,
    dispatch_all initialHeap initialState
      [PublishTransaction "ab12"; UpdateBetaAssetType LBTC;
       UpdateBalance {| usdt := 10%float; btc := 1%float |}]
    = Return (h, state)
    /\ txId state = "".
Proof.
  eexists _, _. split; [reflexivity|].
  eapply (proj2 (proj2 (proj2 (proj2 wallet_actions_keep_legs_and_txId)))
            [PublishTransaction "ab12"; UpdateBetaAssetType LBTC;
             UpdateBalance {| usdt := 10%float; btc := 1%float |}]).
  reflexivity.
Defined.

(** ** The beta amount *)




(** ** More on the reducer *)

Lemma legs_differ_legs (h : heap) (state : State) :
  legs_differ h state <->
  exists l, legs h state = Some l /\ alphaType l <> betaType l.
Proof.
  unfold legs_differ, legs. split.
  - intros (a & -> & Hne). by eexists.
  - intros (l & Hl & Hne). destruct (h !! alpha state) as [a|]; [|done].
    simplify_eq/=. by exists a.
Qed.

(** X1: from any state whose legs hold different assets, every sequence of
    actions of the union type, the wallet actions included, runs to a state
    without a throw, and the legs of that state hold different assets. *)
Theorem typed_run_keeps_legs_apart (actions : list Action) (h : heap)
    (state : State) (l : Legs) :
  Forall typed actions ->
  legs h state = Some l -> alphaType l <> betaType l ->
  exists h' state' l',
    dispatch_all h state actions = Return (h', state')
    /\ legs h' state' = Some l'
    /\ alphaType l' <> betaType l'.
Proof.
  intros Ht Hl Hne.
  destruct (dispatch_all_legs_differ actions Ht h state)
    as (h' & state' & Hrun & Hinv).
  { apply legs_differ_legs. eauto. }
  apply legs_differ_legs in Hinv as (l' & Hl' & Hne').
  by exists h', state', l'.
Qed.

Lemma typed_run_keeps_legs_apart_witness :
  exists h' state' l',
    dispatch_all initialHeap initialState
      [UpdateWalletStatus {| exists_ := true; loaded := true |};
       UpdateBetaAssetType LBTC;
       UpdateBalance {| usdt := 10%float; btc := 1%float |};
       UpdateAlphaAssetType LBTC]
    = Return (h', state')
    /\ legs h' state' = Some l'
    /\ alphaType l' <> betaType l'.
Proof.
  apply (typed_run_keeps_legs_apart
           [UpdateWalletStatus {| exists_ := true; loaded := true |};
            UpdateBetaAssetType LBTC;
            UpdateBalance {| usdt := 10%float; btc := 1%float |};
            UpdateAlphaAssetType LBTC]
           initialHeap initialState
           {| alphaType := LBTC; alphaAmount := "0.01"; betaType := USDT |}).
  - repeat constructor.
  - reflexivity.
  - discriminate.
Defined.

(** The reducer at an action of kind [UpdateBetaAssetType], whatever else
    the action object holds. *)
Lemma reducer_kind_UpdateBetaAssetType (h : heap) (state : State)
    (action : Action) :
  kind action = "UpdateBetaAssetType" ->
  reducer h state action =
  match h !! alpha state, value action with
  | Some a, VAsset v =>
      Return (if decide (type a = v)
              then <[alpha state := {| type := beta state;
                                       amount := amount a |}]> h
              else h,
              {| alpha := alpha state; beta := v; rate := rate state;
                 txId := txId state; wallet := wallet state |})
  | _, _ => Untyped
  end.
Proof. intros Hk. unfold reducer. rewrite Hk. reflexivity. Qed.

(** X2: a call of the reducer that returns changes no object of the store
    but, at most, the [alpha] of its input; it changes that one exactly
    when the action is [UpdateBetaAssetType] with the asset alpha holds
    and beta holds another asset, and then the input state is left with
    [alpha.type] equal to its own [beta]. *)
Theorem reducer_writes_only_input_alpha (h h' : heap) (state state' : State)
    (action : Action) (a : AssetState) :
  reducer h state action = Return (h', state') ->
  h !! alpha state = Some a ->
  (forall l x, l <> alpha state -> h !! l = Some x -> h' !! l = Some x)
  /\ (h' !! alpha state <> Some a <->
      kind action = "UpdateBetaAssetType"
      /\ value action = VAsset (type a)
      /\ beta state <> type a)
  /\ (h' !! alpha state <> Some a ->
      h' !! alpha state
      = Some {| type := beta state; amount := amount a |}).
Proof.
  intros Hred Ha.
  destruct (decide (kind action = "UpdateBetaAssetType")) as [Hk|Hk].
  - rewrite (reducer_kind_UpdateBetaAssetType _ _ _ Hk), Ha in Hred.
    destruct (value action) as [| |v| | |]; try done.
    destruct (decide (type a = v)) as [<-|Hv]; simplify_eq.
    + split; [intros l x Hl Hx; by rewrite lookup_insert_ne|].
      rewrite lookup_insert_eq. split; [|done]. split.
      * intros Hch. split; [done|]. split; [done|].
        intros Hb. apply Hch. rewrite Hb. by destruct a.
      * intros (_ & _ & Hb) [=Heq]. apply Hb. by rewrite <- Heq.
    + split; [done|]. split; [|done]. split; [done|].
      intros (_ & [=Hv'] & _). done.
  - pose proof (reducer_frame _ _ _ _ _ Hk Hred) as Hframe.
    split; [intros l x _; apply Hframe|].
    rewrite (Hframe _ _ Ha). split; [|done]. split; [done|].
    intros (Hk' & _). done.
Qed.

Lemma reducer_writes_only_input_alpha_witness :
  (forall l x, l <> alpha initialState -> initialHeap !! l = Some x ->
     <[initialAlpha := {| type := USDT; amount := "0.01" |}]> initialHeap !! l
     = Some x)
  /\ (<[initialAlpha := {| type := USDT; amount := "0.01" |}]> initialHeap
        !! alpha initialState <> Some {| type := LBTC; amount := "0.01" |}
      <-> kind (UpdateBetaAssetType LBTC) = "UpdateBetaAssetType"
          /\ value (UpdateBetaAssetType LBTC) = VAsset LBTC
          /\ beta initialState <> LBTC)
  /\ (<[initialAlpha := {| type := USDT; amount := "0.01" |}]> initialHeap
        !! alpha initialState <> Some {| type := LBTC; amount := "0.01" |}
      -> <[initialAlpha := {| type := USDT; amount := "0.01" |}]> initialHeap
           !! alpha initialState
         = Some {| type := USDT; amount := "0.01" |}).
Proof.
  apply (reducer_writes_only_input_alpha initialHeap
           (<[initialAlpha := {| type := USDT; amount := "0.01" |}]>
              initialHeap)
           initialState
           {| alpha := initialAlpha; beta := LBTC; rate := rate initialState;
              txId := ""; wallet := wallet initialState |}
           (UpdateBetaAssetType LBTC)
           {| type := LBTC; amount := "0.01" |}).
  - reflexivity.
  - reflexivity.
Defined.

(** X3: [UpdateBetaAssetType] may be run again on the very state object it
    was given (as the reducer's tests do, and as a second render would):
    the second call returns what the first returned and leaves the store
    as the first left it. *)
Theorem UpdateBetaAssetType_again (h h1 : heap) (state state1 : State)
    (newType : Asset) :
  reducer h state (UpdateBetaAssetType newType) = Return (h1, state1) ->
  reducer h1 state (UpdateBetaAssetType newType) = Return (h1, state1).
Proof.
  rewrite !reducer_UpdateBetaAssetType.
  destruct (h !! alpha state) as [a|] eqn:Ha; [|done].
  destruct (decide (type a = newType)) as [Heq|Hne]; intros [= <- <-].
  - rewrite lookup_insert_eq. cbn [type amount].
    destruct (decide (beta state = newType)); [|done].
    by rewrite insert_insert_eq.
  - rewrite Ha. by destruct (decide (type a = newType)).
Qed.

Lemma UpdateBetaAssetType_again_witness :
  reducer (<[initialAlpha := {| type := USDT; amount := "0.01" |}]>
             initialHeap)
    initialState (UpdateBetaAssetType LBTC)
  = Return (<[initialAlpha := {| type := USDT; amount := "0.01" |}]>
              initialHeap,
            {| alpha := initialAlpha; beta := LBTC;
               rate := rate initialState; txId := "";
               wallet := wallet initialState |}).
Proof.
  apply (UpdateBetaAssetType_again initialHeap).
  reflexivity.
Defined.

(** X4: the reducer throws on no action whose kind it has a case for: a
    throw happens exactly for the kinds outside the seven, always with the
    message "Unknown update action received". *)
Theorem reducer_throws_iff_unknown (h : heap) (state : State)
    (action : Action) (msg : string) :
  reducer h state action = Throw msg <->
  (kind action ∉ handled_kinds) /\ msg = "Unknown update action received".
Proof.
  split.
  - unfold reducer. intros Hred.
    repeat match type of Hred with
           | context [String.eqb (kind action) ?k] =>
               destruct (String.eqb_spec (kind action) k);
               [destruct (h !! alpha state), (value action); done|]
           end.
    injection Hred as <-. split; [|done]. unfold handled_kinds.
    repeat (apply not_elem_of_cons; split; [done|]). apply not_elem_of_nil.
  - intros [Hk ->]. unfold reducer.
    rewrite !(eqb_not_handled _ _ Hk); [done|..];
      unfold handled_kinds; set_solver.
Qed.

Lemma reducer_throws_iff_unknown_witness :
  ("SwapAssets" ∉ handled_kinds)
  /\ "Unknown update action received" = "Unknown update action received".
Proof.
  apply (reducer_throws_iff_unknown initialHeap initialState
           {| kind := "SwapAssets"; value := VBetaAmount 1%float |}
           "Unknown update action received").
  reflexivity.
Defined.

(** One call: the amount of the returned state is the payload of an
    [UpdateAlphaAmount] and the amount of the input for every other
    action. *)
Lemma reducer_amount (h h' : heap) (state state' : State) (action : Action)
    (a : AssetState) :
  h !! alpha state = Some a ->
  reducer h state action = Return (h', state') ->
  exists a',
    h' !! alpha state' = Some a'
    /\ amount a' = amount_after (amount a) [action].
Proof.
  intros Ha. unfold reducer. rewrite Ha. cbn [amount_after].
  destruct (String.eqb (kind action) "UpdateAlphaAmount").
  { destruct (value action); intros [= <- <-]. eexists.
    split; [apply alloc_lookup|done]. }
  destruct (String.eqb (kind action) "UpdateAlphaAssetType").
  { destruct (value action); intros [= <- <-]. eexists.
    split; [apply alloc_lookup|done]. }
  destruct (String.eqb (kind action) "UpdateBetaAssetType").
  { destruct (value action) as [| |v| | |]; intros [= <- <-].
    destruct (decide (type a = v)); [|by exists a].
    eexists. split; [apply lookup_insert_eq|done]. }
  destruct (String.eqb (kind action) "SwapAssetTypes").
  { intros [= <- <-]. eexists. split; [apply alloc_lookup|done]. }
  destruct (String.eqb (kind action) "PublishTransaction").
  { intros [= <- <-]. by exists a. }
  destruct (String.eqb (kind action) "UpdateBalance").
  { destruct (value action); intros [= <- <-]. by exists a. }
  destruct (String.eqb (kind action) "UpdateWalletStatus"); [|done].
  destruct (value action); intros [= <- <-]. by exists a.
Qed.

(** X5: after any sequence of actions that runs to a state, the amount of
    the form is the payload of the last [UpdateAlphaAmount] of the
    sequence, or the amount it started with when there is none: no change
    of asset, exchange of the legs or wallet update touches it. *)
Theorem amount_is_last_typed (actions : list Action) :
  forall (h h' : heap) (state state' : State) (a : AssetState),
    h !! alpha state = Some a ->
    dispatch_all h state actions = Return (h', state') ->
    exists a',
      h' !! alpha state' = Some a'
      /\ amount a' = amount_after (amount a) actions.
Proof.
  induction actions as [|action rest IH]; intros h h' state state' a Ha Hrun.
  - simplify_eq/=. by exists a.
  - simpl in Hrun.
    destruct (reducer h state action) as [[h1 state1]|msg|] eqn:Hstep;
      [|done..].
    destruct (reducer_amount _ _ _ _ _ _ Ha Hstep) as (a1 & Ha1 & Ham).
    destruct (IH _ _ _ _ _ Ha1 Hrun) as (a' & Ha' & Ham').
    exists a'. split; [done|]. rewrite Ham', Ham. reflexivity.
Qed.

Lemma amount_is_last_typed_witness :
  exists a',
    <[2 := {| type := USDT; amount := "7" |}]>
      (<[1 := {| type := LBTC; amount := "7" |}]> initialHeap) !! 2
    = Some a'
    /\ amount a' = "7".
Proof.
  apply (amount_is_last_typed
           [UpdateAlphaAmount "7"; SwapAssetTypes 1%float]
           initialHeap _ initialState
           {| alpha := 2; beta := LBTC; rate := rate initialState;
              txId := ""; wallet := wallet initialState |}
           {| type := LBTC; amount := "0.01" |}).
  - reflexivity.
  - reflexivity.
Defined.

Lemma legs_Some (h : heap) (state : State) (l : Legs) :
  legs h state = Some l ->
  exists a,
    h !! alpha state = Some a
    /\ l = {| alphaType := type a; alphaAmount := amount a;
              betaType := beta state |}.
Proof.
  unfold legs. destruct (h !! alpha state) as [a|]; [|done].
  intros [= <-]. by exists a.
Qed.

(** X6: on a state whose legs hold different assets, choosing an asset for
    either leg does one of two things: choosing the asset the leg already
    holds leaves the legs as they are, and choosing the other asset
    exchanges the legs, exactly as [SwapAssetTypes] does; the amount stays
    in every case. *)
Theorem asset_choice_keeps_or_swaps (h : heap) (state : State) (l : Legs)
    (newType : Asset) (betaAmount : float) :
  legs h state = Some l -> alphaType l <> betaType l ->
  (exists h1 state1,
     reducer h state (UpdateAlphaAssetType newType) = Return (h1, state1)
     /\ legs h1 state1
        = Some (if decide (newType = alphaType l) then l else swapLegs l))
  /\ (exists h2 state2,
        reducer h state (UpdateBetaAssetType newType) = Return (h2, state2)
        /\ legs h2 state2
           = Some (if decide (newType = betaType l) then l else swapLegs l))
  /\ (exists h3 state3,
        reducer h state (SwapAssetTypes betaAmount) = Return (h3, state3)
        /\ legs h3 state3 = Some (swapLegs l)).
Proof.
  intros (a & Ha & ->)%legs_Some Hne. cbn [alphaType betaType] in *.
  split; [|split].
  - rewrite reducer_UpdateAlphaAssetType, Ha. eexists _, _.
    split; [reflexivity|]. unfold legs. cbn [alpha beta].
    rewrite alloc_lookup. unfold swapLegs. cbn.
    destruct newType, (type a), (beta state); done.
  - rewrite reducer_UpdateBetaAssetType, Ha. eexists _, _.
    split; [reflexivity|]. unfold legs, swapLegs. cbn.
    destruct (decide (type a = newType)) as [<-|Hv].
    + rewrite lookup_insert_eq. cbn.
      destruct (type a), (beta state); done.
    + rewrite Ha. destruct newType, (type a), (beta state); done.
  - rewrite reducer_SwapAssetTypes, Ha. eexists _, _.
    split; [reflexivity|]. unfold legs. cbn [alpha beta].
    by rewrite alloc_lookup.
Qed.

Lemma asset_choice_keeps_or_swaps_witness :
  exists h1 state1,
    reducer initialHeap initialState (UpdateAlphaAssetType USDT)
    = Return (h1, state1)
    /\ legs h1 state1
       = Some {| alphaType := USDT; alphaAmount := "0.01";
                 betaType := LBTC |}.
Proof.
  apply (asset_choice_keeps_or_swaps initialHeap initialState
           {| alphaType := LBTC; alphaAmount := "0.01"; betaType := USDT |}
           USDT 1%float).
  - reflexivity.
  - discriminate.
Defined.

(** X7: the two wallet actions do not depend on their order: a balance
    update followed by a status update returns the state that the status
    update followed by the balance update returns, with the new balance,
    the new status and everything else as before. *)
Theorem wallet_updates_commute (h : heap) (state : State) (b : Balances)
    (w : WalletStatus) :
  dispatch_all h state [UpdateBalance b; UpdateWalletStatus w]
  = dispatch_all h state [UpdateWalletStatus w; UpdateBalance b]
  /\ dispatch_all h state [UpdateBalance b; UpdateWalletStatus w]
     = Return (h, {| alpha := alpha state; beta := beta state;
                     rate := rate state; txId := txId state;
                     wallet :=
                       {| balance := Some {| usdtBalance := usdt b;
                                             btcBalance := btc b |};
                          status := {| exists_ := exists_ w;
                                       loaded := loaded w |} |} |}).
Proof.
  cbn [dispatch_all].
  rewrite reducer_UpdateBalance, reducer_UpdateWalletStatus.
  split; reflexivity.
Qed.

(** One call of an action that is not a wallet action keeps [wallet], and
    one call of any action keeps [rate]. *)
Lemma reducer_wallet_rate (h h' : heap) (state state' : State)
    (action : Action) :
  reducer h state action = Return (h', state') ->
  rate state' = rate state
  /\ (kind action <> "UpdateBalance" ->
      kind action <> "UpdateWalletStatus" ->
      wallet state' = wallet state).
Proof.
  unfold reducer, alloc. intros Hred.
  repeat match type of Hred with
         | context [String.eqb (kind action) ?k] =>
             destruct (String.eqb_spec (kind action) k);
             [destruct (h !! alpha state), (value action);
              simplify_eq/=; (split; [done|intros; congruence])|]
         end.
  done.
Qed.

(** X8: a sequence of actions among which there is no [UpdateBalance] and
    no [UpdateWalletStatus] returns a state with the wallet it started
    with, and no sequence of actions changes the [rate] that the initial
    state carries. *)
Theorem form_run_keeps_wallet (actions : list Action) :
  forall (h h' : heap) (state state' : State),
    dispatch_all h state actions = Return (h', state') ->
    rate state' = rate state
    /\ (Forall (fun action => kind action <> "UpdateBalance"
                              /\ kind action <> "UpdateWalletStatus")
          actions ->
        wallet state' = wallet state).
Proof.
  induction actions as [|action rest IH]; intros h h' state state' Hrun.
  - by simplify_eq/=.
  - simpl in Hrun.
    destruct (reducer h state action) as [[h1 state1]|msg|] eqn:Hstep;
      [|done..].
    destruct (reducer_wallet_rate _ _ _ _ _ Hstep) as [Hrate Hwallet].
    destruct (IH _ _ _ _ Hrun) as [Hrate' Hwallet'].
    split; [congruence|].
    intros [[Hb Hw] Hrest]%Forall_cons.
    rewrite Hwallet', Hwallet; done.
Qed.

Lemma form_run_keeps_wallet_witness :
  rate {| alpha := 1; beta := LBTC; rate := rate initialState;
          txId := ""; wallet := wallet initialState |}
  = rate initialState
  /\ (Forall (fun action => kind action <> "UpdateBalance"
                            /\ kind action <> "UpdateWalletStatus")
        [SwapAssetTypes 1%float; PublishTransaction "ab12"] ->
      wallet {| alpha := 1; beta := LBTC; rate := rate initialState;
                txId := ""; wallet := wallet initialState |}
      = wallet initialState).
Proof.
  apply (form_run_keeps_wallet
           [SwapAssetTypes 1%float; PublishTransaction "ab12"]
           initialHeap
           (<[1 := {| type := USDT; amount := "0.01" |}]> initialHeap)
           initialState).
  reflexivity.
Defined.

(** ** The selectors and the reducer together *)

(** X9: the asset handler throws exactly for a side that is neither
    ["Alpha"] nor ["Beta"]; for these two sides, on a state whose legs hold
    different assets, the action it dispatches is one the reducer accepts,
    and in the state the reducer returns the leg of that side holds the
    chosen asset, the other leg holds a different one and the amount is as
    before. *)
Theorem onAssetTypeChange_sets_own_leg (assetSide : string)
    (newType : Asset) (h : heap) (state : State) (l : Legs) :
  ((exists msg,
      AssetSelector.onAssetTypeChange assetSide newType = Throw msg)
   <-> assetSide <> AssetSelector.Alpha /\ assetSide <> AssetSelector.Beta)
  /\ (assetSide = AssetSelector.Alpha \/ assetSide = AssetSelector.Beta ->
      legs h state = Some l -> alphaType l <> betaType l ->
      exists action h' state' l',
        AssetSelector.onAssetTypeChange assetSide newType = Return action
        /\ reducer h state action = Return (h', state')
        /\ legs h' state' = Some l'
        /\ (assetSide = AssetSelector.Alpha -> alphaType l' = newType)
        /\ (assetSide = AssetSelector.Beta -> betaType l' = newType)
        /\ alphaType l' <> betaType l'
        /\ alphaAmount l' = alphaAmount l).
Proof.
  unfold AssetSelector.onAssetTypeChange, AssetSelector.Alpha,
    AssetSelector.Beta.
  split.
  - destruct (String.eqb_spec assetSide "Alpha") as [->|HA].
    { split; [by intros [msg ?]|by intros [? _]]. }
    destruct (String.eqb_spec assetSide "Beta") as [->|HB].
    { split; [by intros [msg ?]|by intros [_ ?]]. }
    split; [done|]. intros _. by eexists.
  - intros Hside (a & Ha & ->)%legs_Some Hne. cbn [alphaType betaType] in Hne.
    destruct Hside as [->| ->]; cbn [String.eqb Ascii.eqb Bool.eqb].
    + exists (UpdateAlphaAssetType newType).
      rewrite reducer_UpdateAlphaAssetType, Ha. eexists _, _, _.
      split; [done|]. split; [reflexivity|].
      unfold legs. cbn [alpha beta]. rewrite alloc_lookup.
      split; [reflexivity|]. cbn.
      destruct newType, (type a), (beta state); done.
    + exists (UpdateBetaAssetType newType).
      rewrite reducer_UpdateBetaAssetType, Ha. unfold legs.
      destruct (decide (type a = newType)) as [<-|Hv].
      * eexists _, _, _. split; [done|]. split; [reflexivity|].
        cbn [alpha beta]. rewrite lookup_insert_eq.
        split; [reflexivity|]. cbn. repeat split; congruence.
      * eexists _, _, _. split; [done|]. split; [reflexivity|].
        cbn [alpha beta]. rewrite Ha.
        split; [reflexivity|]. cbn. repeat split; congruence.
Qed.

Lemma onAssetTypeChange_sets_own_leg_witness :
  exists action h' state' l',
    AssetSelector.onAssetTypeChange "Beta" LBTC = Return action
    /\ reducer initialHeap initialState action = Return (h', state')
    /\ legs h' state' = Some l'
    /\ ("Beta" = AssetSelector.Alpha -> alphaType l' = LBTC)
    /\ ("Beta" = AssetSelector.Beta -> betaType l' = LBTC)
    /\ alphaType l' <> betaType l'
    /\ alphaAmount l' = "0.01".
Proof.
  apply (proj2 (onAssetTypeChange_sets_own_leg "Beta" LBTC initialHeap
                  initialState
                  {| alphaType := LBTC; alphaAmount := "0.01";
                     betaType := USDT |})).
  - right. reflexivity.
  - reflexivity.
  - discriminate.
Defined.

(** X10: for the two sides a selector can have, the amount input is
    disabled exactly when the amount handler would throw, so the throw is
    out of reach of the input; a side outside the two would leave the input
    enabled and throw on every edit. *)
Theorem disabled_input_guards_throw (assetSide : string) (newAmount : float) :
  (assetSide = AssetSelector.Alpha \/ assetSide = AssetSelector.Beta ->
   (AssetSelectorView.isDisabled assetSide = true <->
    exists msg, AssetSelector.onAmountChange assetSide newAmount = Throw msg))
  /\ (assetSide <> AssetSelector.Alpha -> assetSide <> AssetSelector.Beta ->
      AssetSelectorView.isDisabled assetSide = false
      /\ exists msg,
           AssetSelector.onAmountChange assetSide newAmount = Throw msg).
Proof.
  unfold AssetSelectorView.isDisabled, AssetSelector.onAmountChange,
    AssetSelector.Alpha, AssetSelector.Beta.
  split.
  - intros [->| ->]; cbn.
    + split; [done|by intros [msg ?]].
    + split; [by eexists|done].
  - intros HA%String.eqb_neq HB%String.eqb_neq. rewrite HA, HB.
    split; [done|by eexists].
Qed.

Lemma disabled_input_guards_throw_witness :
  (AssetSelectorView.isDisabled "Beta" = true <->
   exists msg, AssetSelector.onAmountChange "Beta" 1%float = Throw msg)
  /\ (AssetSelectorView.isDisabled "Gamma" = false
      /\ exists msg, AssetSelector.onAmountChange "Gamma" 1%float = Throw msg).
Proof.
  split.
  - apply (proj1 (disabled_input_guards_throw "Beta" 1%float)).
    right. reflexivity.
  - apply (proj2 (disabled_input_guards_throw "Gamma" 1%float));
      apply (bool_decide_unpack _); reflexivity.
Defined.

(** ** The component around the reducer: balances, button, links *)

(** A comparison with NaN on the right is false. *)
Lemma ltb_nan_r (x : float) : PrimFloat.ltb x nan = false.
Proof.
  rewrite ltb_spec.
  replace (Prim2SF nan) with S754_nan by (vm_compute; reflexivity).
  unfold SFltb, SFcompare. by destruct (Prim2SF x).
Qed.

(** X11: the balance of an asset is the value of the first entry of the
    array with the ticker of the asset, whatever follows it, and it is 0
    when no entry has that ticker, as with the empty array that stands in
    for a missing response. *)
Theorem balanceOf_first_or_zero (a : Asset)
    (before after : list App.BalanceEntry) (entry : App.BalanceEntry) :
  Forall (fun b => App.ticker b <> App.ticker_of a) before ->
  (App.ticker entry = App.ticker_of a ->
   App.balanceOf a (before ++ entry :: after) = App.value entry)
  /\ App.balanceOf a before = 0%float
  /\ App.balanceOf a (App.balances None) = 0%float.
Proof.
  intros Hbefore. unfold App.balanceOf.
  induction Hbefore as [|b before Hb _ IH]; cbn [List.find app].
  - split; [|done]. intros ->. by rewrite String.eqb_refl.
  - apply String.eqb_neq in Hb. rewrite Hb. exact IH.
Qed.

Lemma balanceOf_first_or_zero_witness :
  App.balanceOf LBTC
    ([ {| App.ticker := "USDt"; App.value := 10%float |} ]
     ++ {| App.ticker := "L-BTC"; App.value := 2%float |}
     :: [ {| App.ticker := "L-BTC"; App.value := 5%float |} ])
  = 2%float.
Proof.
  apply (proj1 (balanceOf_first_or_zero LBTC
                  [ {| App.ticker := "USDt"; App.value := 10%float |} ]
                  [ {| App.ticker := "L-BTC"; App.value := 5%float |} ]
                  {| App.ticker := "L-BTC"; App.value := 2%float |}
                  ltac:(repeat constructor; discriminate))).
  reflexivity.
Defined.

Lemma isSwapButtonDisabled_balanceOf (alphaType : Asset)
    (bs : list App.BalanceEntry) (alphaAmount : float) :
  App.isSwapButtonDisabled alphaType bs alphaAmount
  = PrimFloat.ltb (App.balanceOf alphaType bs) alphaAmount.
Proof. by destruct alphaType. Qed.

(** X12: the swap button looks at the balance of the alpha asset only.
    With no entry for that asset it is disabled exactly for the amounts
    above 0; and when the amount string does not parse, so that the amount
    is NaN, the button is enabled whatever the balances are. *)
Theorem swap_button_edge_cases (alphaType : Asset)
    (bs : list App.BalanceEntry) (alphaAmount : float) :
  App.isSwapButtonDisabled alphaType bs nan = false
  /\ (Forall (fun b => App.ticker b <> App.ticker_of alphaType) bs ->
      App.isSwapButtonDisabled alphaType bs alphaAmount
      = PrimFloat.ltb 0 alphaAmount)
  /\ (forall others : list App.BalanceEntry,
        App.balanceOf alphaType others = App.balanceOf alphaType bs ->
        App.isSwapButtonDisabled alphaType others alphaAmount
        = App.isSwapButtonDisabled alphaType bs alphaAmount).
Proof.
  rewrite !isSwapButtonDisabled_balanceOf. split; [apply ltb_nan_r|]. split.
  - intros Hnone. induction Hnone as [|b bs' Hb _ IH]; [done|].
    unfold App.balanceOf in *. cbn [List.find].
    apply String.eqb_neq in Hb. by rewrite Hb.
  - intros others Heq. by rewrite isSwapButtonDisabled_balanceOf, Heq.
Qed.

Lemma swap_button_edge_cases_witness :
  App.isSwapButtonDisabled LBTC
    [ {| App.ticker := "USDt"; App.value := 10%float |} ] 0.5%float
  = PrimFloat.ltb 0 0.5.
Proof.
  apply (proj1 (proj2 (swap_button_edge_cases LBTC
                         [ {| App.ticker := "USDt";
                              App.value := 10%float |} ]
                         0.5%float))).
  repeat constructor. discriminate.
Defined.

(** X13: the header shows the balances exactly when the wallet exists and
    is loaded, and then the balances are being fetched; while there is no
    answer about the wallet status the header shows the button that creates
    a wallet and nothing is fetched. *)
Theorem walletBalances_shown_iff_loaded (w : WalletStatus) :
  (App.walletBalances w = App.WalletBalancesView
   <-> exists_ w = true /\ loaded w = true)
  /\ (App.walletBalances w = App.WalletBalancesView ->
      App.balancesKey w = Some "wallet-balances")
  /\ App.walletBalances (App.walletStatus None) = App.CreateWalletButton
  /\ App.balancesKey (App.walletStatus None) = None.
Proof.
  unfold App.walletBalances, App.balancesKey.
  destruct w as [[] []]; cbn; repeat split; try done; by intros [].
Qed.

Lemma walletBalances_shown_iff_loaded_witness :
  App.balancesKey {| exists_ := true; loaded := true |}
  = Some "wallet-balances".
Proof.
  apply (proj1 (proj2 (walletBalances_shown_iff_loaded
                         {| exists_ := true; loaded := true |}))).
  reflexivity.
Defined.



(** ** Calling the reducer twice *)

(** [alloc_frame] with the allocation written out. *)
Lemma insert_fresh_frame (h : heap) (x y : AssetState) (l : loc) :
  h !! l = Some y -> <[fresh (dom h) := x]> h !! l = Some y.
Proof. apply (alloc_frame h x). Qed.

(** X15: a second call of the reducer with the same state object and the
    same action, made after the first has returned (as a strict-mode
    render does), returns too; the state it returns reads like the state
    the first call returned, legs, transaction id and wallet, and the
    state the first call returned still reads as it did. *)
Theorem reducer_again_reads_the_same (h h1 : heap) (state state1 : State)
    (action : Action) :
  reducer h state action = Return (h1, state1) ->
  exists h2 state2,
    reducer h1 state action = Return (h2, state2)
    /\ legs h2 state2 = legs h1 state1
    /\ legs h2 state1 = legs h1 state1
    /\ txId state2 = txId state1
    /\ wallet state2 = wallet state1.
Proof.
  intros Hred.
  destruct (decide (kind action = "UpdateBetaAssetType")) as [Hk|Hk].
  - rewrite (reducer_kind_UpdateBetaAssetType h _ _ Hk) in Hred.
    rewrite (reducer_kind_UpdateBetaAssetType h1 _ _ Hk).
    destruct (h !! alpha state) as [a|] eqn:Ha; [|done].
    destruct (value action) as [| |v| | |]; try done.
    destruct (decide (type a = v)) as [Hv|Hv]; injection Hred as <- <-.
    + rewrite lookup_insert_eq. cbn [type amount]. eexists _, _.
      split; [reflexivity|].
      destruct (decide (beta state = v)); [rewrite insert_insert_eq|]; done.
    + rewrite Ha. destruct (decide (type a = v)); [done|]. by eexists _, _.
  - pose proof (reducer_frame _ _ _ _ _ Hk Hred) as Hframe.
    apply String.eqb_neq in Hk.
    revert Hred. unfold reducer. rewrite Hk.
    destruct (String.eqb (kind action) "UpdateAlphaAmount").
    { destruct (h !! alpha state) as [a|] eqn:Ha; [|done].
      rewrite (Hframe _ _ Ha).
      destruct (value action); try done. intros [= <- <-].
      eexists _, _. split; [reflexivity|]. unfold legs. cbn [alpha beta].
      by rewrite !lookup_insert_eq,
           (insert_fresh_frame _ _ _ _ (lookup_insert_eq _ _ _)). }
    destruct (String.eqb (kind action) "UpdateAlphaAssetType").
    { destruct (h !! alpha state) as [a|] eqn:Ha; [|done].
      rewrite (Hframe _ _ Ha).
      destruct (value action); try done. intros [= <- <-].
      eexists _, _. split; [reflexivity|]. unfold legs. cbn [alpha beta].
      by rewrite !lookup_insert_eq,
           (insert_fresh_frame _ _ _ _ (lookup_insert_eq _ _ _)). }
    destruct (String.eqb (kind action) "SwapAssetTypes").
    { destruct (h !! alpha state) as [a|] eqn:Ha; [|done].
      rewrite (Hframe _ _ Ha). intros [= <- <-].
      eexists _, _. split; [reflexivity|]. unfold legs. cbn [alpha beta].
      by rewrite !lookup_insert_eq,
           (insert_fresh_frame _ _ _ _ (lookup_insert_eq _ _ _)). }
    destruct (String.eqb (kind action) "PublishTransaction").
    { intros [= <- <-]. by eexists _, _. }
    destruct (String.eqb (kind action) "UpdateBalance").
    { destruct (value action); try done. intros [= <- <-].
      by eexists _, _. }
    destruct (String.eqb (kind action) "UpdateWalletStatus"); [|done].
    destruct (value action); try done. intros [= <- <-]. by eexists _, _.
Qed.

Lemma reducer_again_reads_the_same_witness :
  exists h2 state2,
    reducer (<[1 := {| type := USDT; amount := "0.01" |}]> initialHeap)
      initialState (SwapAssetTypes 1%float)
    = Return (h2, state2)
    /\ legs h2 state2
       = legs (<[1 := {| type := USDT; amount := "0.01" |}]> initialHeap)
           {| alpha := 1; beta := LBTC; rate := rate initialState;
              txId := ""; wallet := wallet initialState |}
    /\ legs h2 {| alpha := 1; beta := LBTC; rate := rate initialState;
                  txId := ""; wallet := wallet initialState |}
       = legs (<[1 := {| type := USDT; amount := "0.01" |}]> initialHeap)
           {| alpha := 1; beta := LBTC; rate := rate initialState;
              txId := ""; wallet := wallet initialState |}
    /\ txId state2 = ""
    /\ wallet state2 = wallet initialState.
Proof.
  apply (reducer_again_reads_the_same initialHeap
           (<[1 := {| type := USDT; amount := "0.01" |}]> initialHeap)
           initialState
           {| alpha := 1; beta := LBTC; rate := rate initialState;
              txId := ""; wallet := wallet initialState |}
           (SwapAssetTypes 1%float)).
  reflexivity.
Defined.
